(** * ContentGenerator: a shallow embedding of the image-generation pipeline

    Three variants of [ContentGenerator] exist in the repository:
    - [LocalGen]: src/unnamed/part_000 (copies into public/generated-images);
    - [S3Gen]: src/unnamed/part_002 (uploads to S3, optional CDN domain);
    - [RouteGen]: the class defined in src/src/app/api/code_snippet_generator/route.ts
      (copies into the working directory).
    The outside world (mkdtemp, the renderer process, the directory listing,
    the copy or upload) is an oracle record [Env]; the effects on the file
    system are threaded through an explicit state [St]. *)

From Stdlib Require Import String Ascii List Bool ZArith QArith_base Lia DecimalString.
Import ListNotations.
Open Scope nat_scope.
Open Scope string_scope.

(** ** JavaScript values *)

(** [string | undefined] *)
Definition jsstr := option string.

(** JavaScript truthiness of [string | undefined]: the empty string is falsy. *)
Definition truthy (v : jsstr) : bool :=
  match v with
  | Some s => negb (String.eqb s "")
  | None => false
  end.

(** [a || b] on [string | undefined]. *)
Definition js_or (a b : jsstr) : jsstr := if truthy a then a else b.

(** [a || "d"]: always a string. *)
Definition js_or_str (a : jsstr) (d : string) : string :=
  match js_or a (Some d) with Some s => s | None => d end.

(** [s.endsWith(suf)] *)
Definition endsWith (s suf : string) : bool :=
  let n := String.length s in
  let k := String.length suf in
  (k <=? n)%nat && String.eqb (substring (n - k) k s) suf.

(** [path.join(a, b)] for a relative [b] without separators. *)
Definition path_join (a b : string) : string := a ++ "/" ++ b.

(** ** The state and error monad of the embedding *)

(** The file system and the side effects that the claims observe. *)
Record St := mkSt {
  st_dirs : list string;                  (* scratch directories that exist *)
  st_persisted : list (string * string);  (* (destination, source file) *)
  st_cmds : list (list string)            (* command lines spawned, latest first *)
}.

(** A synchronous computation either returns or throws an [Error] with a message. *)
Inductive res (A : Type) := Ok (a : A) | Exn (msg : string).
Arguments Ok {A} a.
Arguments Exn {A} msg.

Definition M (A : Type) := St -> res A * St.

Definition ret {A} (a : A) : M A := fun s => (Ok a, s).
Definition bind {A B} (m : M A) (k : A -> M B) : M B :=
  fun s => match m s with
           | (Ok a, s') => k a s'
           | (Exn e, s') => (Exn e, s')
           end.
Definition throw {A} (msg : string) : M A := fun s => (Exn msg, s).

Notation "x <- m ;; k" := (bind m (fun x => k))
  (at level 61, m at next level, right associativity).
Notation "m ;;; k" := (bind m (fun _ => k))
  (at level 61, right associativity).

(** The settled state of the promise returned by an [async] method.
    [PUncaught] is an exception thrown out of an event listener: it reaches the
    process as an uncaught exception and the promise never settles. *)
Inductive presult := PResolve (v : string) | PReject (msg : string) | PUncaught (msg : string).

(** An [async] function whose body runs without an inner promise: a throw
    becomes the rejection of its promise. *)
Definition run_async (m : M string) : M presult :=
  fun s => match m s with
           | (Ok v, s') => (Ok (PResolve v), s')
           | (Exn e, s') => (Ok (PReject e), s')
           end.

(** [try { body } catch (e) { throw new Error(prefix + e.message) }] *)
Definition try_wrap {A} (prefix : string) (m : M A) : M A :=
  fun s => match m s with
           | (Exn e, s') => (Exn (prefix ++ e), s')
           | r => r
           end.

(** An event listener: what it throws escapes as an uncaught exception. *)
Definition listener (m : M presult) : M presult :=
  fun s => match m s with
           | (Exn e, s') => (Ok (PUncaught e), s')
           | r => r
           end.

(** ** The outside world *)

(** The result of [spawnSync]: [error] is set when the process could not be
    started; [status] is [null] when it was killed by a signal. *)
Record SpawnResult := mkSpawn {
  sr_error : option string;
  sr_status : option Z;
  sr_stderr : string
}.

Record Env := mkEnv {
  env_mkdtemp : res string;      (* the directory [fs.mkdtempSync] creates, or its error *)
  env_write : option string;     (* error of [fs.writeFileSync], if any *)
  env_uuid : string;             (* [uuidv4()] *)
  env_spawn : SpawnResult;       (* outcome of the renderer process *)
  env_readdir : list string;     (* [fs.readdirSync(tempDir)] after the renderer ran *)
  env_persist : option string;   (* error of [copyFileSync] / of the upload, if any *)
  env_cwd : string               (* [process.cwd()] *)
}.

(** ** File-system primitives *)

Definition mkdtempSync (env : Env) : M string :=
  fun s => match env_mkdtemp env with
           | Ok d => (Ok d, mkSt (d :: st_dirs s) (st_persisted s) (st_cmds s))
           | Exn e => (Exn e, s)
           end.

Definition writeFileSync (env : Env) : M unit :=
  fun s => match env_write env with
           | Some e => (Exn e, s)
           | None => (Ok tt, s)
           end.

Definition spawnSync (env : Env) (cmd : list string) : M SpawnResult :=
  fun s => (Ok (env_spawn env), mkSt (st_dirs s) (st_persisted s) (cmd :: st_cmds s)).

(** [spawn(cmd)]: the child process is started; a launch failure is only
    reported later, through its 'error' event. *)
Definition spawn (env : Env) (cmd : list string) : M SpawnResult :=
  fun s => (Ok (env_spawn env), mkSt (st_dirs s) (st_persisted s) (cmd :: st_cmds s)).

Definition readdirSync (env : Env) (d : string) : M (list string) := ret (env_readdir env).

Definition copyFileSync (env : Env) (src dst : string) : M unit :=
  fun s => match env_persist env with
           | Some e => (Exn e, s)
           | None => (Ok tt, mkSt (st_dirs s) ((dst, src) :: st_persisted s) (st_cmds s))
           end.

Definition rmSync (d : string) : M unit :=
  fun s => (Ok tt, mkSt (remove string_dec d (st_dirs s)) (st_persisted s) (st_cmds s)).

(** [readFileSync] of the artifact and [s3Client.send(new PutObjectCommand(...))]
    under [key]; [env_persist] is the error of either step. *)
Definition putObject (env : Env) (key src : string) : M unit :=
  fun s => match env_persist env with
           | Some e => (Exn e, s)
           | None => (Ok tt, mkSt (st_dirs s) ((key, src) :: st_persisted s) (st_cmds s))
           end.

Definition z_neq (a : option Z) (b : Z) : bool :=
  match a with Some z => negb (Z.eqb z b) | None => true end.

(** [`${n}`] for a number or [null]. *)
Definition show_status (z : option Z) : string :=
  match z with
  | Some n => NilZero.string_of_int (Z.to_int n)
  | None => "null"
  end.

(** The unhandled 'error' event of a child process that could not be started,
    or else its 'close' event with the exit code, handled by [on_close]. *)
Definition on_spawned (r : SpawnResult) (on_close : option Z -> M presult) : M presult :=
  match sr_error r with
  | Some e => ret (PUncaught e)
  | None => listener (on_close (sr_status r))
  end.

(** An [async] method whose [try] block returns [new Promise(...)]: the catch
    clause only sees what is thrown before the promise is returned; the
    returned promise is adopted as it settles. *)
Definition async_returning_promise (prefix : string) (body : M (M presult)) : M presult :=
  fun s => match try_wrap prefix body s with
           | (Ok p, s') => p s'
           | (Exn e, s') => (Ok (PReject e), s')
           end.

(** ** src/unnamed/part_000: local strategy *)
Module LocalGen.

Record ContentGenerator := mkGen {
  preset_name : jsstr;
  outputDir : string
}.

(** [constructor(preset_name?)] run in the working directory [cwd]. *)
Definition construct (cwd : string) (preset_name : jsstr) : ContentGenerator :=
  mkGen preset_name (path_join (path_join cwd "public") "generated-images").

(** The command line of the code renderer. *)
Definition code_command (self : ContentGenerator) (tempFile tempDir : string)
    (preset_name : jsstr) : list string :=
  let command := ["carbon-now"; tempFile; "--save-to"; tempDir] in
  if truthy preset_name || truthy (LocalGen.preset_name self) then
    let selectedPreset := js_or_str (js_or preset_name (LocalGen.preset_name self)) "dracula" in
    (command ++ ["-p"; selectedPreset])%list
  else command.

Definition generateCodeImage (env : Env) (self : ContentGenerator)
    (code : string) (preset_name : jsstr) : M presult :=
  run_async (try_wrap "Failed to generate code snapshot: " (
    tempDir <- mkdtempSync env ;;
    let tempFile := path_join tempDir "code_snippet.ts" in
    let outputUuid := env_uuid env in
    writeFileSync env ;;;
    let command := code_command self tempFile tempDir preset_name in
    result <- spawnSync env command ;;
    match sr_error result with
    | Some e => throw e
    | None =>
      if z_neq (sr_status result) 0 then
        throw ("Carbon CLI failed with status " ++ show_status (sr_status result))
      else
        listing <- readdirSync env tempDir ;;
        let files := filter (fun file => endsWith file ".png") listing in
        match files with
        | [] => throw "No image was generated"
        | file0 :: _ =>
          let fileName := outputUuid ++ ".png" in
          let finalPath := path_join (outputDir self) fileName in
          copyFileSync env (path_join tempDir file0) finalPath ;;;
          rmSync tempDir ;;;
          ret ("/generated-images/" ++ fileName)
        end
    end)).

Definition diagram_command (tempFile outputPath configFile : string) : list string :=
  ["mmdc"; "-w"; "2048"; "-i"; tempFile; "-o"; outputPath; "-c"; configFile;
   "-b"; "transparent"].

Definition generateDiagramImage (env : Env) (self : ContentGenerator)
    (diagram_code : string) : M presult :=
  async_returning_promise "Failed to generate diagram: " (
    tempDir <- mkdtempSync env ;;
    let tempFile := path_join tempDir "diagram.mmd" in
    let configFile := path_join tempDir "config.json" in
    let outputPath := path_join tempDir "diagram.png" in
    let outputUuid := env_uuid env in
    writeFileSync env ;;;
    writeFileSync env ;;;
    let command := diagram_command tempFile outputPath configFile in
    ret (
      child <- spawn env command ;;
      on_spawned child (fun code =>
        if z_neq code 0 then ret (PReject "Mermaid CLI failed")
        else
          let fileName := outputUuid ++ ".png" in
          let finalPath := path_join (outputDir self) fileName in
          copyFileSync env outputPath finalPath ;;;
          rmSync tempDir ;;;
          ret (PResolve ("/generated-images/" ++ fileName))))).

End LocalGen.

(** ** src/unnamed/part_002: remote strategy (S3, optional CDN) *)
Module S3Gen.

(** The environment variables the constructor reads. *)
Record ProcEnv := mkProcEnv {
  BAWS_REGION : jsstr;
  BAWS_ACCESS_KEY_ID : jsstr;
  BAWS_SECRET_ACCESS_KEY : jsstr;
  BAWS_S3_BUCKET : jsstr;
  CDN_DOMAIN : jsstr
}.

Record S3Client := mkS3Client {
  region : string;
  accessKeyId : string;
  secretAccessKey : string
}.

Record ContentGenerator := mkGen {
  preset_name : jsstr;
  s3Client : S3Client;
  bucketName : string;
  cdnDomain : string
}.

(** [constructor(preset_name?)]: throws when the bucket name is empty or unset. *)
Definition construct (penv : ProcEnv) (preset_name : jsstr) : res ContentGenerator :=
  let client := mkS3Client (js_or_str (BAWS_REGION penv) "us-east-1")
                           (js_or_str (BAWS_ACCESS_KEY_ID penv) "")
                           (js_or_str (BAWS_SECRET_ACCESS_KEY penv) "") in
  let bucketName := js_or_str (BAWS_S3_BUCKET penv) "" in
  let cdnDomain := js_or_str (CDN_DOMAIN penv) "" in
  if negb (truthy (Some bucketName)) then
    Exn "AWS_S3_BUCKET environment variable is required"
  else Ok (mkGen preset_name client bucketName cdnDomain).

Definition uploadToS3 (env : Env) (self : ContentGenerator) (filePath fileName : string)
    : M string :=
  let key := "generated-images/" ++ fileName in
  putObject env key filePath ;;;
  if truthy (Some (cdnDomain self)) then ret ("https://" ++ cdnDomain self ++ "/" ++ key)
  else ret ("https://" ++ bucketName self ++ ".s3.amazonaws.com/" ++ key).

(** The command line of the code renderer: the preset is fixed to 'openai'. *)
Definition code_command (self : ContentGenerator) (cwd tempFile tempDir : string)
    (preset_name : jsstr) : list string :=
  let command := ["carbon-now"; tempFile; "--save-to"; tempDir] in
  let command :=
    if truthy preset_name || truthy (S3Gen.preset_name self) then
      let selectedPreset := "openai" in
      (command ++ ["-p"; selectedPreset])%list
    else command in
  (command ++ ["--config";
    path_join (path_join (path_join (path_join (path_join cwd "src") "app") "api")
      "code_snippet_generator") "carbon-now.json"])%list.

Definition generateCodeImage (env : Env) (self : ContentGenerator)
    (code : string) (preset_name : jsstr) : M presult :=
  run_async (try_wrap "Failed to generate code snapshot: " (
    tempDir <- mkdtempSync env ;;
    let tempFile := path_join tempDir "code_snippet.py" in
    let outputUuid := env_uuid env in
    writeFileSync env ;;;
    let command := code_command self (env_cwd env) tempFile tempDir preset_name in
    result <- spawnSync env command ;;
    match sr_error result with
    | Some e => throw e
    | None =>
      if z_neq (sr_status result) 0 then
        throw ("Carbon CLI failed with status " ++ show_status (sr_status result))
      else
        listing <- readdirSync env tempDir ;;
        let files := filter (fun file => endsWith file ".png") listing in
        match files with
        | [] => throw "No image was generated"
        | file0 :: _ =>
          let fileName := outputUuid ++ ".png" in
          let generatedFilePath := path_join tempDir file0 in
          imageUrl <- uploadToS3 env self generatedFilePath fileName ;;
          rmSync tempDir ;;;
          ret imageUrl
        end
    end)).

(** [try { ... resolve(...) } catch (error) { reject(error) }] *)
Definition catch_reject (m : M presult) : M presult :=
  fun s => match m s with
           | (Exn e, s') => (Ok (PReject e), s')
           | r => r
           end.

Definition generateDiagramImage (env : Env) (self : ContentGenerator)
    (diagram_code : string) : M presult :=
  async_returning_promise "Failed to generate diagram: " (
    tempDir <- mkdtempSync env ;;
    let tempFile := path_join tempDir "diagram.mmd" in
    let configFile := path_join tempDir "config.json" in
    let outputPath := path_join tempDir "diagram.png" in
    let outputUuid := env_uuid env in
    writeFileSync env ;;;
    writeFileSync env ;;;
    let command := LocalGen.diagram_command tempFile outputPath configFile in
    ret (
      child <- spawn env command ;;
      on_spawned child (fun code =>
        if z_neq code 0 then ret (PReject "Mermaid CLI failed")
        else catch_reject (
          let fileName := outputUuid ++ ".png" in
          imageUrl <- uploadToS3 env self outputPath fileName ;;
          rmSync tempDir ;;;
          ret (PResolve imageUrl))))).

End S3Gen.

(** ** src/src/app/api/code_snippet_generator/route.ts: the class defined after
    the route handler, which copies into the working directory *)
Module RouteGen.

Record ContentGenerator := mkGen { preset_name : jsstr }.

Definition generateCodeImage (env : Env) (self : ContentGenerator)
    (code : string) (preset_name : jsstr) : M presult :=
  async_returning_promise "Failed to generate code snapshot: " (
    tempDir <- mkdtempSync env ;;
    let tempFile := path_join tempDir "code_snippet.ts" in
    let outputUuid := env_uuid env in
    writeFileSync env ;;;
    let command := ["carbon-now"; tempFile; "--save-to"; tempDir] in
    let command :=
      if truthy preset_name || truthy (RouteGen.preset_name self) then
        app command ["-p"; js_or_str (js_or preset_name (RouteGen.preset_name self)) "dracula"]
      else command in
    ret (
      child <- spawn env command ;;
      on_spawned child (fun code =>
        if z_neq code 0 then ret (PReject "Carbon CLI failed")
        else
          listing <- readdirSync env tempDir ;;
          let files := filter (fun file => endsWith file ".png") listing in
          match files with
          | [] => ret (PReject "No image was generated")
          | file0 :: _ =>
            let finalPath := outputUuid ++ ".png" in
            copyFileSync env (path_join tempDir file0) finalPath ;;;
            rmSync tempDir ;;;
            ret (PResolve finalPath)
          end))).

Definition generateDiagramImage (env : Env) (self : ContentGenerator)
    (diagram_code : string) : M presult :=
  async_returning_promise "Failed to generate diagram: " (
    tempDir <- mkdtempSync env ;;
    let tempFile := path_join tempDir "diagram.mmd" in
    let configFile := path_join tempDir "config.json" in
    let outputPath := path_join tempDir "diagram.png" in
    writeFileSync env ;;;
    writeFileSync env ;;;
    let command := LocalGen.diagram_command tempFile outputPath configFile in
    ret (
      child <- spawn env command ;;
      on_spawned child (fun code =>
        if z_neq code 0 then ret (PReject "Mermaid CLI failed")
        else
          let finalPath := "diagram.png" in
          copyFileSync env outputPath finalPath ;;;
          rmSync tempDir ;;;
          ret (PResolve finalPath)))).

End RouteGen.

(** ** Extraction of image references by the HTTP route

    [String.prototype.match] with a global regular expression, for patterns made
    of literal characters and greedy [[...]+] character classes, with the
    backtracking of the JavaScript matcher. *)
Module Regex.

Inductive atom := Lit (c : ascii) | Plus (cls : ascii -> bool).
Definition pattern := list atom.

(** Length of the longest prefix of [s] in the class [p]. *)
Fixpoint run_len (p : ascii -> bool) (s : list ascii) : nat :=
  match s with
  | c :: s' => if p c then S (run_len p s') else 0
  | [] => 0
  end.

(** A greedy [+]: try the runs of length [k], [k-1], ..., [1] in turn and
    continue with [next] after the run. *)
Fixpoint try_down (next : list ascii -> option nat) (s : list ascii) (k : nat) : option nat :=
  match k with
  | 0 => None
  | S k' =>
    match next (skipn k s) with
    | Some m => Some (k + m)
    | None => try_down next s k'
    end
  end.

(** The length of the match of [pat] at the start of [s], if any: a greedy
    [Plus] tries the longest run first and gives back one character at a time. *)
Fixpoint match_at (pat : pattern) (s : list ascii) : option nat :=
  match pat with
  | [] => Some 0
  | Lit c :: pat' =>
    match s with
    | c' :: s' => if Ascii.eqb c c' then option_map S (match_at pat' s') else None
    | [] => None
    end
  | Plus p :: pat' => try_down (match_at pat') s (run_len p s)
  end.

(** All matches, left to right, as [str.match(/.../g)] returns them; after an
    empty match the search moves on by one character. *)
Fixpoint match_global (pat : pattern) (fuel : nat) (s : list ascii) : list (list ascii) :=
  match fuel with
  | 0 => []
  | S fuel' =>
    match match_at pat s with
    | Some k =>
      firstn k s :: match s with
                    | [] => []
                    | _ :: _ => match_global pat fuel' (skipn (Nat.max k 1) s)
                    end
    | None =>
      match s with
      | [] => []
      | _ :: s' => match_global pat fuel' s'
      end
    end
  end.

Definition in_range (lo hi c : ascii) : bool :=
  (nat_of_ascii lo <=? nat_of_ascii c)%nat && (nat_of_ascii c <=? nat_of_ascii hi)%nat.

(** The class [[\w-]]. *)
Definition word_or_dash (c : ascii) : bool :=
  in_range "a" "z" c || in_range "A" "Z" c || in_range "0" "9" c
  || Ascii.eqb c "_" || Ascii.eqb c "-".

Definition lit (s : string) : pattern := map Lit (list_ascii_of_string s).

(** [str.match(re) || []] *)
Definition str_match (pat : pattern) (content : string) : list string :=
  let l := list_ascii_of_string content in
  map string_of_list_ascii (match_global pat (S (length l)) l).

End Regex.

Import Regex.

(** route.ts, [extractImagePaths]: [/\/generated-images\/[\w-]+\.png/g] *)
Definition route_pattern : pattern :=
  (lit "/generated-images/" ++ [Plus word_or_dash] ++ lit ".png")%list.

(** src/unnamed/part_003, [POST]: [/(?:\/[\w-]+\.png)/g] *)
Definition old_route_pattern : pattern :=
  (lit "/" ++ [Plus word_or_dash] ++ lit ".png")%list.



(** The last command line spawned. *)
Definition last_command (s : St) : list string := hd [] (st_cmds s).

(** The argument of the preset flag: the flags follow the four fixed arguments
    [carbon-now <file> --save-to <dir>]. *)
Definition preset_flag (cmd : list string) : option string :=
  match skipn 4 cmd with
  | "-p" :: p :: _ => Some p
  | _ => None
  end.

(** The workspace [d] outlives the call exactly when the call does not resolve. *)
Definition workspace_after (d : string) (r : res presult) (s' : St) : Prop :=
  match r with
  | Ok (PResolve _) => ~ In d (st_dirs s')
  | _ => In d (st_dirs s')
  end.

(** The call fails and nothing reaches the artifact store. *)
Definition fails_without_persist (s : St) (r : res presult) (s' : St) : Prop :=
  (exists m, r = Ok (PReject m)) /\ st_persisted s' = st_persisted s.

(** The reference formats the spec lists for [uuid]. *)
Definition spec_reference_form (uuid v : string) : Prop :=
  v = "/generated-images/" ++ uuid ++ ".png" \/
  (exists cdnDomain, v = "https://" ++ cdnDomain ++ "/generated-images/" ++ uuid ++ ".png") \/
  (exists bucket, v = "https://" ++ bucket ++ ".s3.amazonaws.com/generated-images/" ++ uuid ++ ".png").



(** ** The HTTP route handlers

    The request body and the messages are JSON values. Numbers are the
    rationals their decimal notation denotes. *)

#[warnings="-register-all"]
Inductive json :=
| JNull
| JBool (b : bool)
| JNum (q : Q)
| JStr (s : string)
| JArr (l : list json)
| JObj (fields : list (string * json)).

(** Truthiness of a value that may be [undefined] ([None]). *)
Definition jtruthy (v : option json) : bool :=
  match v with
  | None | Some JNull => false
  | Some (JBool b) => b
  | Some (JNum q) => negb (Qeq_bool q 0%Q)
  | Some (JStr s) => negb (String.eqb s "")
  | Some (JArr _) | Some (JObj _) => true
  end.

(** The value of key [k] in an object built by [JSON.parse]: a later
    duplicate key overwrites an earlier one. *)
Fixpoint assoc_last (k : string) (fields : list (string * json)) : option json :=
  match fields with
  | [] => None
  | (k', v) :: rest =>
    match assoc_last k rest with
    | Some w => Some w
    | None => if String.eqb k k' then Some v else None
    end
  end.

(** [v.k] for the keys this code reads, none of which a string, number,
    boolean or array has: reading a property of [null] is a [TypeError]. *)
Definition prop (v : json) (k : string) : res (option json) :=
  match v with
  | JNull => Exn ("Cannot read properties of null (reading '" ++ k ++ "')")
  | JObj fields => Ok (assoc_last k fields)
  | _ => Ok None
  end.

(** [v.k] where [v] may be [undefined]. *)
Definition prop_u (v : option json) (k : string) : res (option json) :=
  match v with
  | None => Exn ("Cannot read properties of undefined (reading '" ++ k ++ "')")
  | Some v => prop v k
  end.

(** [arr[i]] on an array: a negative index is a missing property. *)
Definition js_index {A} (l : list A) (i : Z) : option A :=
  if (i <? 0)%Z then None else nth_error l (Z.to_nat i).

Definition rbind {A B} (m : res A) (k : A -> res B) : res B :=
  match m with
  | Ok a => k a
  | Exn e => Exn e
  end.

Notation "'let!' x := m 'in' k" := (rbind m (fun x => k))
  (at level 200, x name, m at level 100, k at level 200).

(** [arr.map(f)] with an [f] that may throw. *)
Fixpoint map_res {A B} (f : A -> res B) (l : list A) : res (list B) :=
  match l with
  | [] => Ok []
  | x :: rest =>
    let! y := f x in
    let! ys := map_res f rest in
    Ok (y :: ys)
  end.

(** An object literal under construction: its keys in insertion order, each
    with a value that may be [undefined]. *)
Definition FMsg := list (string * option json).

(** route.ts, [formatMessages]: [role] and [content] are always copied, the
    four optional keys only when they are truthy. *)
Definition formatMessage (msg : json) : res FMsg :=
  let! role := prop msg "role" in
  let! content := prop msg "content" in
  let formattedMsg := [("role", role); ("content", content)] in
  let! name := prop msg "name" in
  let formattedMsg := if jtruthy name then (formattedMsg ++ [("name", name)])%list
                      else formattedMsg in
  let! tool_calls := prop msg "tool_calls" in
  let formattedMsg := if jtruthy tool_calls
                      then (formattedMsg ++ [("tool_calls", tool_calls)])%list
                      else formattedMsg in
  let! function_call := prop msg "function_call" in
  let formattedMsg := if jtruthy function_call
                      then (formattedMsg ++ [("function_call", function_call)])%list
                      else formattedMsg in
  let! tool_call_id := prop msg "tool_call_id" in
  let formattedMsg := if jtruthy tool_call_id
                      then (formattedMsg ++ [("tool_call_id", tool_call_id)])%list
                      else formattedMsg in
  Ok formattedMsg.

Definition formatMessages (messages : list json) : res (list FMsg) :=
  map_res formatMessage messages.

(** The [Response] the swarm library's [client.run] resolves to. *)
Record SwarmResponse := mkSwarmResponse {
  sw_messages : list json;
  sw_rest : json   (* [agent] and [context_variables] *)
}.

(** The body handed to [JSON.stringify], kept as the value it serialises. *)
Inductive Body :=
| BodyMessage (message : string)
| BodyResult (response : SwarmResponse) (images : list string).

Record Response := mkResponse {
  res_status : Z;
  res_body : Body;
  res_content_type : string
}.

Definition createJsonResponse (body : Body) (status : Z) : Response :=
  mkResponse status body "application/json".

(** What a request handler meets: [await req.json()], [new Swarm()] (its
    error, if any) and [await client.run(...)] on the messages it passes. *)
Record RouteWorld := mkWorld {
  w_req_json : res json;
  w_swarm_new : option string;
  w_run : list FMsg -> res SwarmResponse
}.

(** [const { messages } = body]: destructuring [null] is a [TypeError]. *)
Definition destructure_messages (body : json) : res (option json) :=
  match body with
  | JNull => Exn "Cannot destructure property 'messages' of '(intermediate value)' as it is null."
  | _ => prop body "messages"
  end.

Definition new_Swarm (w : RouteWorld) : res unit :=
  match w_swarm_new w with Some e => Exn e | None => Ok tt end.

(** route.ts, [extractImagePaths] on the response of the agent. *)
Definition extractImagePathsOfResponse (response : SwarmResponse) : res (list string) :=
  let! last := prop_u (js_index (sw_messages response)
                         (Z.of_nat (length (sw_messages response)) - 1)) "content" in
  match last with
  | Some (JStr content) => Ok (str_match route_pattern content)
  | None => Exn "Cannot read properties of undefined (reading 'match')"
  | Some JNull => Exn "Cannot read properties of null (reading 'match')"
  | Some _ => Exn "response.messages[(response.messages.length - 1)].content.match is not a function"
  end.

Definition error_response : Response :=
  createJsonResponse (BodyMessage "An error occurred while processing your request") 500.

Definition missing_messages_response : Response :=
  createJsonResponse (BodyMessage "Messages array is required") 400.

(** [try { ... } catch (error) { return createJsonResponse(..., 500) }] *)
Definition catch_500 (r : res Response) : Response :=
  match r with Ok resp => resp | Exn _ => error_response end.

(** route.ts, [POST]. *)
Definition POST (w : RouteWorld) : Response :=
  catch_500 (
    let! body := w_req_json w in
    let! messages := destructure_messages body in
    match messages with
    | Some (JArr msgs) =>
      let! _ := new_Swarm w in
      let! formattedMessages := formatMessages msgs in
      let! response := w_run w formattedMessages in
      let! images := extractImagePathsOfResponse response in
      Ok (createJsonResponse (BodyResult response images) 200)
    | _ => Ok missing_messages_response
    end).

(** src/unnamed/part_003, [POST]: the messages keep [role] and [content]
    only, and the images are read from [messages[-1]]. *)
Definition POST_old (w : RouteWorld) : Response :=
  catch_500 (
    let! body := w_req_json w in
    let! messages := destructure_messages body in
    match messages with
    | Some (JArr msgs) =>
      let! _ := new_Swarm w in
      let! formattedMessages :=
        map_res (fun msg => let! role := prop msg "role" in
                            let! content := prop msg "content" in
                            Ok [("role", role); ("content", content)]) msgs in
      let! response := w_run w formattedMessages in
      let! content := prop_u (js_index (sw_messages response) (-1)) "content" in
      let! images :=
        match content with
        | Some (JStr c) => Ok (str_match old_route_pattern c)
        | None => Exn "Cannot read properties of undefined (reading 'match')"
        | Some JNull => Exn "Cannot read properties of null (reading 'match')"
        | Some _ => Exn "response.messages[-1].content.match is not a function"
        end in
      Ok (createJsonResponse (BodyResult response images) 200)
    | _ => Ok missing_messages_response
    end).

(** ** The agent's snippet tool (route.ts, [receiveImportantCodeSnippets])

    The snippets are the JSON values the model sent: the code reads them at
    the type [CodeSnippet[]] but checks nothing. *)

Record GeneratedSnippet := mkGeneratedSnippet {
  gen_snippet : json;   (* the field [snippet] *)
  image_path : string
}.

Definition lift {A} (r : res A) : M A := fun s => (r, s).

(** [snippets.entries()] on the value read from [items]. *)
Definition entries (snippets : option json) : res (list json) :=
  match snippets with
  | None => Exn "Cannot read properties of undefined (reading 'entries')"
  | Some JNull => Exn "Cannot read properties of null (reading 'entries')"
  | Some (JArr l) => Ok l
  | Some _ => Exn "snippets.entries is not a function"
  end.

(** The inner [try { ... } catch (e) { logger.error(...) }]: a throw or a
    rejection of the awaited call is logged, and the snippet skipped. *)
Definition catch_logged (m : M presult) : M presult :=
  fun s => match m s with
           | (Exn e, s') => (Ok (PReject e), s')
           | r => r
           end.

(** The loop [for (let [idx, snippet] of snippets.entries())]. Its first
    statement logs [snippet.description] outside the inner [try]: on a [null]
    element the [TypeError] ends the loop. [generate idx code] is the
    [idx]-th call of [generateCodeImage] on [snippet.snippet]. An exception
    left uncaught in a call ([inr]) ends the loop too: its promise never
    settles. *)
Fixpoint snippet_loop (generate : nat -> option json -> M presult) (idx : nat)
    (snippets : list json) (codeSnippetsWithImages : list GeneratedSnippet)
    : M (list GeneratedSnippet + string) :=
  match snippets with
  | [] => ret (inl codeSnippetsWithImages)
  | sn :: rest =>
    lift (prop sn "description") ;;;
    r <- catch_logged (code <- lift (prop sn "snippet") ;; generate idx code) ;;
    match r with
    | PResolve image_path =>
      snippet_loop generate (S idx) rest
        (codeSnippetsWithImages ++ [mkGeneratedSnippet sn image_path])%list
    | PReject _ => snippet_loop generate (S idx) rest codeSnippetsWithImages
    | PUncaught e => ret (inr e)
    end
  end.

Definition dq : string := String (Ascii.ascii_of_nat 34) EmptyString.

(** The [ERR_INVALID_ARG_TYPE] of [fs.writeFileSync] on data that is not a
    string; Node appends a description of the value received, which only
    reaches the log here. *)
Definition invalid_data : string :=
  "The " ++ dq ++ "data" ++ dq ++
  " argument must be of type string or an instance of Buffer, TypedArray, or DataView.".

(** [contentGenerator.generateCodeImage(snippet.snippet)] in the world [env].
    The code only reaches [fs.writeFileSync(tempFile, code)], which throws on
    a value that is not a string, after the workspace is created. *)
Definition route_snippet_call (env : Env) (contentGenerator : RouteGen.ContentGenerator)
    (code : option json) : M presult :=
  match code with
  | Some (JStr c) => RouteGen.generateCodeImage env contentGenerator c None
  | _ =>
    RouteGen.generateCodeImage
      (mkEnv (env_mkdtemp env) (Some invalid_data) (env_uuid env) (env_spawn env)
             (env_readdir env) (env_persist env) (env_cwd env))
      contentGenerator "" None
  end.

(** The calls of the tool, [new ContentGenerator('dracula')] being the
    generator; [envs idx] is the world the [idx]-th call meets. *)
Definition tool_call (envs : nat -> Env) (idx : nat) (code : option json) : M presult :=
  route_snippet_call (envs idx) (RouteGen.mkGen (Some "dracula")) code.

Section SnippetTool.

(** [JSON.parse] *)
Variable json_parse : string -> res json.
(** [JSON.stringify] of the collected pairs. *)
Variable stringify : list GeneratedSnippet -> string.

(** [JSON.parse(snippetsJson)['items']], then [.entries()]. *)
Definition read_items (snippetsJson : string) : res (list json) :=
  let! parsed := json_parse snippetsJson in
  let! snippets := prop parsed "items" in
  entries snippets.

(** [receive_important_code_snippets] *)
Definition receiveImportantCodeSnippets (envs : nat -> Env) (snippetsJson : string)
    : M presult :=
  fun s =>
    match try_wrap "Failed to process snippets: " (
      snippets <- lift (read_items snippetsJson) ;;
      snippet_loop (tool_call envs) 0 snippets []) s with
    | (Ok (inl l), s') => (Ok (PResolve (stringify l)), s')
    | (Ok (inr e), s') => (Ok (PUncaught e), s')
    | (Exn e, s') => (Ok (PReject e), s')
    end.

End SnippetTool.

(** The value of key [k] of a message object, [undefined] ([None]) otherwise. *)
Definition json_get (m : json) (k : string) : option json :=
  match m with JObj fields => assoc_last k fields | _ => None end.


(** The operation rejects with [prefix ++ e], launched no process and
    persisted nothing. *)
Definition rejected_before_launch (prefix e : string) (s : St) (r : res presult) (s' : St) : Prop :=
  r = Ok (PReject (prefix ++ e)) /\ st_cmds s' = st_cmds s /\ st_persisted s' = st_persisted s.

(** ** Concrete inputs *)

Definition uuid0 : string := "9b1deb4d-3b7d-4bad-9bdd-2b0d7b3dcb6d".
Definition dir0 : string := "/tmp/code-Ab12Cd".
Definition st0 : St := mkSt [] [] [].

(** The renderer ran and exited with status [status]; [listing] is the workspace. *)
Definition env_run (status : option Z) (listing : list string) : Env :=
  mkEnv (Ok dir0) None uuid0 (mkSpawn None status "") listing None "/app".

(** As [env_run], but copying or uploading the artifact fails with [err]. *)
Definition env_persist_fails (err : string) : Env :=
  mkEnv (Ok dir0) None uuid0 (mkSpawn None (Some 0%Z) "") ["diagram.png"] (Some err) "/app".

(** A failure of the code-image operation carries the operation's prefix. *)
Definition wrapped_code_failure (r : res presult) : Prop :=
  match r with
  | Ok (PResolve _) => True
  | Ok (PReject m) => exists m', m = "Failed to generate code snapshot: " ++ m'
  | _ => False
  end.

Definition local0 : LocalGen.ContentGenerator := LocalGen.construct "/app" (Some "dracula").
Definition local_nopreset : LocalGen.ContentGenerator := LocalGen.construct "/app" None.
Definition s3_0 : S3Gen.ContentGenerator :=
  S3Gen.mkGen (Some "dracula") (S3Gen.mkS3Client "us-east-1" "" "") "my-bucket" "".
Definition s3_nopreset : S3Gen.ContentGenerator :=
  S3Gen.mkGen None (S3Gen.mkS3Client "us-east-1" "" "") "my-bucket" "".
Definition route0 : RouteGen.ContentGenerator := RouteGen.mkGen (Some "dracula").


(** * Properties *)

Example str_match_route :
  str_match route_pattern "see /generated-images/ab-12.png and /x.png"
  = ["/generated-images/ab-12.png"].
Proof. vm_compute. reflexivity. Qed.

Example str_match_old_route :
  str_match old_route_pattern "see /generated-images/ab-12.png" = ["/ab-12.png"].
Proof. vm_compute. reflexivity. Qed.


Ltac unfold_gen :=
  unfold LocalGen.generateCodeImage, LocalGen.generateDiagramImage,
    S3Gen.generateCodeImage, S3Gen.generateDiagramImage,
    RouteGen.generateCodeImage, RouteGen.generateDiagramImage,
    S3Gen.uploadToS3, S3Gen.catch_reject, run_async, try_wrap,
    async_returning_promise, on_spawned, listener, bind, ret, throw,
    mkdtempSync, writeFileSync, spawnSync, spawn, readdirSync, copyFileSync,
    putObject, rmSync, LocalGen.code_command, S3Gen.code_command, last_command,
    preset_flag, js_or_str, js_or in *.

Ltac split_matches :=
  repeat (cbn; match goal with
         | |- context [match ?x with _ => _ end] =>
           lazymatch x with
           | context [match _ with _ => _ end] => fail
           | _ => destruct x eqn:?
           end
         end).

Lemma remove_not_In (d : string) (l : list string) : ~ In d (remove string_dec d l).
Proof. apply remove_In. Qed.

Lemma In_remove_neq (d x : string) (l : list string) :
  x <> d -> In x l -> In x (remove string_dec d l).
Proof. intros Hne Hin. apply in_in_remove; assumption. Qed.

Ltac settle_workspace :=
  unfold_gen;
  match goal with e : Env |- _ => destruct e as [mk wr uu [err st se] rd pe cw] end;
  simpl in *; subst;
  split_matches; simpl; try congruence;
  first [ apply remove_not_In | left; reflexivity | idtac ].

(** C1 (amended): in every variant, the workspace is removed on the path that
    resolves and is left in place on every path that fails after creating it. *)
Theorem workspace_removed_only_on_success :
  forall (env : Env) (d : string) (s : St), env_mkdtemp env = Ok d ->
  (forall self code p, let '(r, s') := LocalGen.generateCodeImage env self code p s in
                       workspace_after d r s') /\
  (forall self code, let '(r, s') := LocalGen.generateDiagramImage env self code s in
                     workspace_after d r s') /\
  (forall self code p, let '(r, s') := S3Gen.generateCodeImage env self code p s in
                       workspace_after d r s') /\
  (forall self code, let '(r, s') := S3Gen.generateDiagramImage env self code s in
                     workspace_after d r s') /\
  (forall self code p, let '(r, s') := RouteGen.generateCodeImage env self code p s in
                       workspace_after d r s') /\
  (forall self code, let '(r, s') := RouteGen.generateDiagramImage env self code s in
                     workspace_after d r s').
Proof.
  intros env d s Hmk.
  repeat split; intros; settle_workspace.
Qed.

Lemma workspace_removed_only_on_success_witness :
  env_mkdtemp (env_run (Some 1%Z) []) = Ok dir0 /\
  In dir0 (st_dirs (snd (LocalGen.generateCodeImage (env_run (Some 1%Z) []) local0
                           "const x = 1;" None st0))).
Proof.
  split; [reflexivity |].
  destruct (workspace_removed_only_on_success (env_run (Some 1%Z) []) dir0 st0 eq_refl)
    as [Hl _].
  specialize (Hl local0 "const x = 1;" None).
  destruct (LocalGen.generateCodeImage (env_run (Some 1%Z) []) local0 "const x = 1;" None st0)
    as [r s'] eqn:E.
  vm_compute in E. injection E as <- <-. exact Hl.
Defined.

(** C1 (counterexample): the renderer exits with status 1; the call fails and
    its workspace still exists afterwards. *)
Lemma workspace_leaks_on_failure :
  ~ (forall env self code p s d, env_mkdtemp env = Ok d ->
       ~ In d (st_dirs (snd (LocalGen.generateCodeImage env self code p s)))).
Proof.
  intro H.
  apply (H (env_run (Some 1%Z) ["code_snippet.ts"]) local0 "const x = 1;" None st0 dir0
           eq_refl).
  vm_compute. left. reflexivity.
Qed.

Ltac settle_run :=
  unfold_gen;
  match goal with e : Env |- _ => destruct e as [mk wr uu [err st se] rd pe cw] end;
  simpl in *; subst;
  repeat match goal with
         | H : ?x = true |- _ => progress rewrite H in *
         | H : ?x = false |- _ => progress rewrite H in *
         end;
  split_matches; simpl in *; try congruence;
  repeat split; try (eexists; reflexivity); try reflexivity; try congruence;
  try apply remove_not_In.

(** C2: when the renderer starts and exits with a non-zero status (or is killed),
    every variant rejects and the artifact store is never used; the code-image
    operations report the exit status under their prefix. *)
Theorem nonzero_exit_never_persists :
  forall (env : Env) (s : St),
  sr_error (env_spawn env) = None -> z_neq (sr_status (env_spawn env)) 0 = true ->
  (forall self code p, let '(r, s') := LocalGen.generateCodeImage env self code p s in
                       fails_without_persist s r s') /\
  (forall self code p, let '(r, s') := S3Gen.generateCodeImage env self code p s in
                       fails_without_persist s r s') /\
  (forall self code p, let '(r, s') := RouteGen.generateCodeImage env self code p s in
                       fails_without_persist s r s') /\
  (forall self code, let '(r, s') := LocalGen.generateDiagramImage env self code s in
                     fails_without_persist s r s') /\
  (forall self code, let '(r, s') := S3Gen.generateDiagramImage env self code s in
                     fails_without_persist s r s') /\
  (forall self code, let '(r, s') := RouteGen.generateDiagramImage env self code s in
                     fails_without_persist s r s') /\
  (forall self code p d, env_mkdtemp env = Ok d -> env_write env = None ->
     fst (LocalGen.generateCodeImage env self code p s)
     = Ok (PReject ("Failed to generate code snapshot: " ++ "Carbon CLI failed with status "
                    ++ show_status (sr_status (env_spawn env))))) /\
  (forall self code p d, env_mkdtemp env = Ok d -> env_write env = None ->
     fst (S3Gen.generateCodeImage env self code p s)
     = Ok (PReject ("Failed to generate code snapshot: " ++ "Carbon CLI failed with status "
                    ++ show_status (sr_status (env_spawn env))))).
Proof.
  intros env s Herr Hst.
  repeat split; intros; settle_run.
Qed.

Lemma nonzero_exit_never_persists_witness :
  sr_error (env_spawn (env_run (Some 1%Z) [])) = None /\
  z_neq (sr_status (env_spawn (env_run (Some 1%Z) []))) 0 = true /\
  fst (LocalGen.generateCodeImage (env_run (Some 1%Z) []) local0 "const x = 1;" None st0)
  = Ok (PReject "Failed to generate code snapshot: Carbon CLI failed with status 1").
Proof.
  split; [reflexivity | split; [reflexivity |]].
  pose proof (nonzero_exit_never_persists (env_run (Some 1%Z) []) st0 eq_refl eq_refl)
    as (_ & _ & _ & _ & _ & _ & H & _).
  exact (H local0 "const x = 1;" None dir0 eq_refl eq_refl).
Defined.

(** C6: the renderer exits with status 0 but no file of the workspace ends in
    ".png": the call rejects with the no-image error instead of resolving. *)
Theorem no_png_rejects :
  forall (env : Env) (s : St) (d : string),
  env_mkdtemp env = Ok d -> env_write env = None ->
  sr_error (env_spawn env) = None -> sr_status (env_spawn env) = Some 0%Z ->
  filter (fun file => endsWith file ".png") (env_readdir env) = [] ->
  (forall self code p, fst (LocalGen.generateCodeImage env self code p s)
     = Ok (PReject "Failed to generate code snapshot: No image was generated")) /\
  (forall self code p, fst (S3Gen.generateCodeImage env self code p s)
     = Ok (PReject "Failed to generate code snapshot: No image was generated")) /\
  (forall self code p, fst (RouteGen.generateCodeImage env self code p s)
     = Ok (PReject "No image was generated")).
Proof.
  intros env s d Hmk Hwr Herr Hst Hfiles.
  repeat split; intros; settle_run.
Qed.

Lemma no_png_rejects_witness :
  fst (LocalGen.generateCodeImage (env_run (Some 0%Z) ["code_snippet.ts"]) local0
         "const x = 1;" None st0)
  = Ok (PReject "Failed to generate code snapshot: No image was generated").
Proof.
  pose proof (no_png_rejects (env_run (Some 0%Z) ["code_snippet.ts"]) st0 dir0
                eq_refl eq_refl eq_refl eq_refl ltac:(vm_compute; reflexivity)) as (H & _).
  apply H.
Defined.

(** C9: with two or more PNG files in the workspace, exactly one artifact is
    persisted, the first PNG file of the listing, and the workspace with the
    other files is removed. *)
Theorem first_png_persisted :
  forall (env : Env) (s : St) (d f0 f1 : string) (rest : list string),
  env_mkdtemp env = Ok d -> env_write env = None ->
  sr_error (env_spawn env) = None -> sr_status (env_spawn env) = Some 0%Z ->
  filter (fun file => endsWith file ".png") (env_readdir env) = f0 :: f1 :: rest ->
  env_persist env = None ->
  (forall self code p, let '(r, s') := LocalGen.generateCodeImage env self code p s in
     (exists v, r = Ok (PResolve v)) /\
     st_persisted s' = (path_join (LocalGen.outputDir self) (env_uuid env ++ ".png"),
                        path_join d f0) :: st_persisted s /\
     ~ In d (st_dirs s')) /\
  (forall self code p, let '(r, s') := S3Gen.generateCodeImage env self code p s in
     (exists v, r = Ok (PResolve v)) /\
     st_persisted s' = ("generated-images/" ++ env_uuid env ++ ".png", path_join d f0)
                       :: st_persisted s /\
     ~ In d (st_dirs s')) /\
  (forall self code p, let '(r, s') := RouteGen.generateCodeImage env self code p s in
     (exists v, r = Ok (PResolve v)) /\
     st_persisted s' = (env_uuid env ++ ".png", path_join d f0) :: st_persisted s /\
     ~ In d (st_dirs s')).
Proof.
  intros env s d f0 f1 rest Hmk Hwr Herr Hst Hfiles Hpe.
  repeat split; intros; settle_run.
Qed.

Lemma first_png_persisted_witness :
  st_persisted (snd (LocalGen.generateCodeImage
    (env_run (Some 0%Z) ["a.png"; "code_snippet.ts"; "b.png"]) local0 "const x = 1;" None st0))
  = [("/app/public/generated-images/" ++ uuid0 ++ ".png", dir0 ++ "/a.png")].
Proof.
  pose proof (first_png_persisted (env_run (Some 0%Z) ["a.png"; "code_snippet.ts"; "b.png"])
                st0 dir0 "a.png" "b.png" [] eq_refl eq_refl eq_refl eq_refl
                ltac:(vm_compute; reflexivity) eq_refl) as (H & _).
  specialize (H local0 "const x = 1;" None).
  destruct (LocalGen.generateCodeImage _ _ _ _ _) as [r s'] eqn:E.
  destruct H as (_ & H & _). simpl. rewrite H. reflexivity.
Defined.

(** C10: with no preset passed and none given to the constructor, the renderer
    command line carries no preset flag. *)
Theorem no_preset_no_flag :
  forall (env : Env) (s : St) (d : string),
  env_mkdtemp env = Ok d -> env_write env = None ->
  (forall cwd code, let '(_, s') := LocalGen.generateCodeImage env
                                      (LocalGen.construct cwd None) code None s in
     st_cmds s' = ["carbon-now"; path_join d "code_snippet.ts"; "--save-to"; d] :: st_cmds s /\
     preset_flag (last_command s') = None) /\
  (forall self code, S3Gen.preset_name self = None ->
     let '(_, s') := S3Gen.generateCodeImage env self code None s in
     (exists cmd, st_cmds s' = cmd :: st_cmds s) /\ preset_flag (last_command s') = None) /\
  (forall code, let '(_, s') := RouteGen.generateCodeImage env (RouteGen.mkGen None) code None s in
     st_cmds s' = ["carbon-now"; path_join d "code_snippet.ts"; "--save-to"; d] :: st_cmds s /\
     preset_flag (last_command s') = None).
Proof.
  intros env s d Hmk Hwr.
  repeat split; intros;
  repeat match goal with g : S3Gen.ContentGenerator |- _ => destruct g end;
  simpl in *; subst; settle_run.
Qed.

Lemma no_preset_no_flag_witness :
  preset_flag (last_command (snd (LocalGen.generateCodeImage
    (env_run (Some 0%Z) ["a.png"]) local_nopreset "const x = 1;" None st0))) = None.
Proof.
  pose proof (no_preset_no_flag (env_run (Some 0%Z) ["a.png"]) st0 dir0 eq_refl eq_refl)
    as (H & _).
  specialize (H "/app" "const x = 1;").
  unfold local_nopreset.
  destruct (LocalGen.generateCodeImage _ _ _ _ _) as [r s'] eqn:E.
  exact (proj2 H).
Defined.

(** C4 (amended): the preset flag of the local and in-route variants carries the
    preset passed to the call when it is non-empty, else the constructor's
    preset when that is non-empty, and is absent otherwise; the remote variant
    passes "-p openai" whenever either preset is non-empty. *)
Theorem preset_flag_selection :
  forall (env : Env) (s : St) (d : string),
  env_mkdtemp env = Ok d -> env_write env = None ->
  (forall self code p, truthy p = true ->
     preset_flag (last_command (snd (LocalGen.generateCodeImage env self code p s))) = p) /\
  (forall self code p, truthy p = false -> truthy (LocalGen.preset_name self) = true ->
     preset_flag (last_command (snd (LocalGen.generateCodeImage env self code p s)))
     = LocalGen.preset_name self) /\
  (forall self code p, truthy p = false -> truthy (LocalGen.preset_name self) = false ->
     preset_flag (last_command (snd (LocalGen.generateCodeImage env self code p s))) = None) /\
  (forall self code p, truthy p = true ->
     preset_flag (last_command (snd (RouteGen.generateCodeImage env self code p s))) = p) /\
  (forall self code p, truthy p = false -> truthy (RouteGen.preset_name self) = true ->
     preset_flag (last_command (snd (RouteGen.generateCodeImage env self code p s)))
     = RouteGen.preset_name self) /\
  (forall self code p, truthy p = false -> truthy (RouteGen.preset_name self) = false ->
     preset_flag (last_command (snd (RouteGen.generateCodeImage env self code p s))) = None) /\
  (forall self code p, truthy p || truthy (S3Gen.preset_name self) = true ->
     preset_flag (last_command (snd (S3Gen.generateCodeImage env self code p s)))
     = Some "openai") /\
  (forall self code p, truthy p = false -> truthy (S3Gen.preset_name self) = false ->
     preset_flag (last_command (snd (S3Gen.generateCodeImage env self code p s))) = None).
Proof.
  intros env s d Hmk Hwr.
  repeat split; intros;
  repeat match goal with
         | g : S3Gen.ContentGenerator |- _ => destruct g
         | g : LocalGen.ContentGenerator |- _ => destruct g
         | g : RouteGen.ContentGenerator |- _ => destruct g
         end;
  simpl in *; subst; settle_run.
Qed.

Lemma preset_flag_selection_witness :
  preset_flag (last_command (snd (LocalGen.generateCodeImage
    (env_run (Some 0%Z) ["a.png"]) local0 "const x = 1;" (Some "solarized") st0)))
  = Some "solarized".
Proof.
  pose proof (preset_flag_selection (env_run (Some 0%Z) ["a.png"]) st0 dir0 eq_refl eq_refl)
    as (H & _).
  exact (H local0 "const x = 1;" (Some "solarized") eq_refl).
Defined.

(** C4 (counterexample): the remote variant renders with preset "openai" when
    "dracula" is supplied, and with no preset supplied at all no "-p dracula"
    default is applied. *)
Lemma preset_flag_not_supplied_name :
  preset_flag (last_command (snd (S3Gen.generateCodeImage
    (env_run (Some 0%Z) ["a.png"]) s3_0 "const x = 1;" (Some "dracula") st0)))
  = Some "openai" /\
  preset_flag (last_command (snd (LocalGen.generateCodeImage
    (env_run (Some 0%Z) ["a.png"]) local_nopreset "const x = 1;" None st0)))
  = None.
Proof. vm_compute. split; reflexivity. Qed.

Ltac settle_resolve :=
  unfold_gen;
  match goal with e : Env |- _ => destruct e as [mk wr uu [err st se] rd pe cw] end;
  simpl in *; split_matches; simpl in *;
  let Hr := fresh "Hr" in
  intro Hr; try discriminate Hr; injection Hr as <-; reflexivity.

(** C5 (amended): the local variant resolves to "/generated-images/<uuid>.png";
    the remote variant to "https://<cdnDomain>/generated-images/<uuid>.png" when
    a CDN domain is configured and to
    "https://<bucket>.s3.amazonaws.com/generated-images/<uuid>.png" otherwise;
    the in-route variant resolves a code image to "<uuid>.png" and a diagram
    to "diagram.png". *)
Theorem reference_forms :
  forall (env : Env) (s : St),
  (forall self code p v, fst (LocalGen.generateCodeImage env self code p s) = Ok (PResolve v) ->
     v = "/generated-images/" ++ env_uuid env ++ ".png") /\
  (forall self code v, fst (LocalGen.generateDiagramImage env self code s) = Ok (PResolve v) ->
     v = "/generated-images/" ++ env_uuid env ++ ".png") /\
  (forall self code p v, fst (S3Gen.generateCodeImage env self code p s) = Ok (PResolve v) ->
     v = if truthy (Some (S3Gen.cdnDomain self))
         then "https://" ++ S3Gen.cdnDomain self ++ "/generated-images/" ++ env_uuid env ++ ".png"
         else "https://" ++ S3Gen.bucketName self ++ ".s3.amazonaws.com/generated-images/"
              ++ env_uuid env ++ ".png") /\
  (forall self code v, fst (S3Gen.generateDiagramImage env self code s) = Ok (PResolve v) ->
     v = if truthy (Some (S3Gen.cdnDomain self))
         then "https://" ++ S3Gen.cdnDomain self ++ "/generated-images/" ++ env_uuid env ++ ".png"
         else "https://" ++ S3Gen.bucketName self ++ ".s3.amazonaws.com/generated-images/"
              ++ env_uuid env ++ ".png") /\
  (forall self code p v, fst (RouteGen.generateCodeImage env self code p s) = Ok (PResolve v) ->
     v = env_uuid env ++ ".png") /\
  (forall self code v, fst (RouteGen.generateDiagramImage env self code s) = Ok (PResolve v) ->
     v = "diagram.png").
Proof.
  intros env s.
  repeat split; intros *; settle_resolve.
Qed.

Lemma reference_forms_witness :
  fst (LocalGen.generateCodeImage (env_run (Some 0%Z) ["a.png"]) local0 "const x = 1;" None st0)
  = Ok (PResolve "/generated-images/9b1deb4d-3b7d-4bad-9bdd-2b0d7b3dcb6d.png") /\
  "/generated-images/9b1deb4d-3b7d-4bad-9bdd-2b0d7b3dcb6d.png"
  = "/generated-images/" ++ uuid0 ++ ".png".
Proof.
  split; [vm_compute; reflexivity |].
  apply (proj1 (reference_forms (env_run (Some 0%Z) ["a.png"]) st0) local0 "const x = 1;" None).
  vm_compute. reflexivity.
Defined.

(** C5 (counterexample): the in-route variant resolves a code image to
    "<uuid>.png" and every diagram to "diagram.png", none of the listed forms. *)
Lemma route_reference_not_spec_form :
  fst (RouteGen.generateCodeImage (env_run (Some 0%Z) ["a.png"]) route0 "const x = 1;" None st0)
  = Ok (PResolve (uuid0 ++ ".png")) /\
  ~ spec_reference_form uuid0 (uuid0 ++ ".png") /\
  fst (RouteGen.generateDiagramImage (env_run (Some 0%Z) ["diagram.png"]) route0
         "graph TD; A-->B;" st0)
  = Ok (PResolve "diagram.png").
Proof.
  split; [vm_compute; reflexivity | split; [| vm_compute; reflexivity]].
  unfold spec_reference_form, uuid0.
  intros [H | [[c H] | [b H]]]; simpl in H; discriminate H.
Qed.

(** C7: the remote variant's constructor throws exactly when the bucket variable
    is unset or empty, and otherwise keeps it as the bucket name. *)
Theorem s3_constructor_requires_bucket :
  forall (penv : S3Gen.ProcEnv) (p : jsstr),
  match S3Gen.construct penv p with
  | Ok g => S3Gen.BAWS_S3_BUCKET penv = Some (S3Gen.bucketName g) /\ S3Gen.bucketName g <> ""
  | Exn e => (S3Gen.BAWS_S3_BUCKET penv = None \/ S3Gen.BAWS_S3_BUCKET penv = Some "") /\
             e = "AWS_S3_BUCKET environment variable is required"
  end.
Proof.
  intros [r a k b c] p.
  unfold S3Gen.construct, js_or_str, js_or, truthy; simpl.
  destruct b as [b |]; simpl.
  - destruct b as [| ch b']; simpl.
    + auto.
    + split; [reflexivity | discriminate].
  - auto.
Qed.

(** C3 (code_bug): the code-image operations wrap every failure with their
    prefix, but the diagram operations return [new Promise(...)] from inside
    their [try]: a renderer failure rejects with the bare "Mermaid CLI failed",
    an upload failure of the remote variant with the bare upload error, and a
    failed copy in the local variant is thrown out of the 'close' listener. *)
Theorem diagram_failures_escape_prefix :
  (forall env s self code p, wrapped_code_failure (fst (LocalGen.generateCodeImage env self code p s))) /\
  (forall env s self code p, wrapped_code_failure (fst (S3Gen.generateCodeImage env self code p s))) /\
  fst (LocalGen.generateDiagramImage (env_run (Some 1%Z) []) local0 "graph TD; A-->B;" st0)
  = Ok (PReject "Mermaid CLI failed") /\
  fst (S3Gen.generateDiagramImage (env_persist_fails "Access Denied") s3_0 "graph TD; A-->B;" st0)
  = Ok (PReject "Access Denied") /\
  fst (LocalGen.generateDiagramImage (env_persist_fails "ENOENT: no such file or directory")
         local0 "graph TD; A-->B;" st0)
  = Ok (PUncaught "ENOENT: no such file or directory").
Proof.
  split; [| split; [| vm_compute; repeat split; reflexivity]];
  intros; unfold wrapped_code_failure; settle_run.
Qed.

(** ** Matching of the route pattern *)

Section RouteMatching.
Local Open Scope list_scope.
















End RouteMatching.











(** ** The route handlers *)

Lemma str_app_assoc (a b c : string) : ((a ++ b) ++ c) = a ++ (b ++ c).
Proof. induction a as [| ch a IH]; simpl; [reflexivity | rewrite IH; reflexivity]. Qed.

Lemma formatMessage_shape (m : json) (f : FMsg) :
  formatMessage m = Ok f ->
  map fst f = (["role"; "content"] ++
               filter (fun k => jtruthy (json_get m k))
                      ["name"; "tool_calls"; "function_call"; "tool_call_id"])%list /\
  (forall k v, In (k, v) f -> v = json_get m k).
Proof.
  intros H. destruct m; cbn in H; try discriminate H; injection H as <-;
    [split; [reflexivity | intros k v Hin; cbn in Hin; cbn [json_get]; intuition congruence] .. |].
  cbn [json_get filter].
  repeat match goal with |- context [jtruthy ?x] => destruct (jtruthy x) end;
  (split; [reflexivity | intros k v Hin; cbn in Hin; cbn [json_get]; intuition congruence]).
Qed.

Lemma formatMessages_Forall2 (msgs : list json) (fs : list FMsg) :
  formatMessages msgs = Ok fs -> Forall2 (fun m f => formatMessage m = Ok f) msgs fs.
Proof.
  unfold formatMessages. revert fs.
  induction msgs as [| m msgs IH]; intros fs H; cbn in H.
  - injection H as <-. constructor.
  - destruct (formatMessage m) as [f |] eqn:Ef; [| discriminate H].
    cbn in H. destruct (map_res formatMessage msgs) as [fs' |] eqn:Efs; [| discriminate H].
    cbn in H. injection H as <-. constructor; [exact Ef | apply IH; reflexivity].
Qed.

Lemma formatMessage_null_only (m : json) : formatMessage m = Exn "Cannot read properties of null (reading 'role')" \/ exists f, formatMessage m = Ok f.
Proof.
  destruct m; cbn; [left; reflexivity | right; eexists; reflexivity ..].
Qed.

Lemma formatMessages_null (msgs : list json) :
  In JNull msgs -> formatMessages msgs = Exn "Cannot read properties of null (reading 'role')".
Proof.
  unfold formatMessages. induction msgs as [| m msgs IH]; intros Hin; [destruct Hin |].
  cbn. destruct Hin as [-> | Hin]; [reflexivity |].
  destruct (formatMessage_null_only m) as [E | [f E]]; rewrite E; cbn; [reflexivity |].
  rewrite (IH Hin). reflexivity.
Qed.

Lemma js_index_last {A} (l : list A) (m : A) :
  js_index (l ++ [m])%list (Z.of_nat (length (l ++ [m])%list) - 1) = Some m.
Proof.
  unfold js_index. rewrite length_app. cbn [length].
  replace (Z.of_nat (length l + 1) - 1)%Z with (Z.of_nat (length l)) by lia.
  rewrite (proj2 (Z.ltb_ge _ _)) by lia.
  rewrite Nat2Z.id, nth_error_app2, Nat.sub_diag by lia. reflexivity.
Qed.

Lemma extractImagePathsOfResponse_ok (r : SwarmResponse) (images : list string) :
  extractImagePathsOfResponse r = Ok images ->
  exists rest m c, sw_messages r = (rest ++ [m])%list /\
    json_get m "content" = Some (JStr c) /\ images = str_match route_pattern c.
Proof.
  unfold extractImagePathsOfResponse. intros H.
  destruct (sw_messages r) as [| x l] eqn:Em using rev_ind.
  - cbn in H. discriminate H.
  - clear IHl. rewrite js_index_last in H.
    destruct x; cbn in H; try discriminate H.
    destruct (assoc_last "content" fields) as [[] |] eqn:Ec; cbn in H; try discriminate H.
    injection H as <-. exists l, (JObj fields), s. auto.
Qed.

Lemma extractImagePathsOfResponse_no_text (r : SwarmResponse) :
  (sw_messages r = [] \/
   exists rest m, sw_messages r = (rest ++ [m])%list /\ forall c, json_get m "content" <> Some (JStr c)) ->
  exists e, extractImagePathsOfResponse r = Exn e.
Proof.
  unfold extractImagePathsOfResponse. intros [E | (rest & m & E & Hc)]; rewrite E.
  - eexists. reflexivity.
  - rewrite js_index_last.
    destruct m; cbn; try (eexists; reflexivity).
    cbn in Hc. destruct (assoc_last "content" fields) as [[] |]; cbn;
      try (eexists; reflexivity). exfalso. eapply Hc. reflexivity.
Qed.

Lemma Forall2_nth_both {A B} (P : A -> B -> Prop) (l1 : list A) (l2 : list B) :
  Forall2 P l1 l2 -> forall i a b, nth_error l1 i = Some a -> nth_error l2 i = Some b -> P a b.
Proof.
  induction 1 as [| x y l1 l2 Hxy _ IH]; intros [| i] a b Ha Hb; cbn in *;
    try discriminate; [congruence | eauto].
Qed.

Lemma json_get_destructure (b : json) (v : json) :
  json_get b "messages" = Some v -> destructure_messages b = Ok (Some v).
Proof. destruct b; cbn; congruence. Qed.

(** route.ts, formatMessages: every message is kept, in order; each formatted
    message has [role] and [content] first and after them exactly those of
    [name], [tool_calls], [function_call] and [tool_call_id] that are truthy,
    all with the values of the input message; no other key is forwarded. *)
Theorem formatMessages_keeps_truthy_fields :
  forall (msgs : list json) (fs : list FMsg), formatMessages msgs = Ok fs ->
  length fs = length msgs /\
  forall i m f, nth_error msgs i = Some m -> nth_error fs i = Some f ->
    map fst f = (["role"; "content"] ++
                 filter (fun k => jtruthy (json_get m k))
                        ["name"; "tool_calls"; "function_call"; "tool_call_id"])%list /\
    (forall k v, In (k, v) f -> v = json_get m k).
Proof.
  intros msgs fs H. apply formatMessages_Forall2 in H. split.
  - symmetry. exact (Forall2_length H).
  - intros i m f Hm Hf. apply formatMessage_shape.
    exact (Forall2_nth_both _ _ _ H i m f Hm Hf).
Qed.

Lemma formatMessages_keeps_truthy_fields_witness :
  formatMessages [JObj [("role", JStr "user"); ("content", JStr "hi"); ("name", JStr "");
                        ("tool_calls", JArr []); ("images", JArr [])]]
  = Ok [[("role", Some (JStr "user")); ("content", Some (JStr "hi"));
         ("tool_calls", Some (JArr []))]] /\
  map fst [("role", Some (JStr "user")); ("content", Some (JStr "hi"));
           ("tool_calls", Some (JArr []))] = ["role"; "content"; "tool_calls"].
Proof.
  split; [vm_compute; reflexivity |].
  destruct (formatMessages_keeps_truthy_fields
              [JObj [("role", JStr "user"); ("content", JStr "hi"); ("name", JStr "");
                     ("tool_calls", JArr []); ("images", JArr [])]]
              [[("role", Some (JStr "user")); ("content", Some (JStr "hi"));
                ("tool_calls", Some (JArr []))]] ltac:(vm_compute; reflexivity)) as [_ H].
  exact (proj1 (H 0 _ _ eq_refl eq_refl)).
Defined.

(** route.ts, POST: a request whose messages array holds a [null] is answered
    with the generic 500 error, whatever the agent would do. *)
Theorem POST_null_message_500 :
  forall (w : RouteWorld) (b : json) (msgs : list json),
  w_req_json w = Ok b -> json_get b "messages" = Some (JArr msgs) -> In JNull msgs ->
  POST w = error_response.
Proof.
  intros w b msgs Hb Hm Hn. unfold POST. rewrite Hb. cbn [rbind].
  rewrite (json_get_destructure _ _ Hm). cbn [rbind].
  destruct (new_Swarm w); cbn [rbind]; [| reflexivity].
  rewrite (formatMessages_null _ Hn). reflexivity.
Qed.

Lemma POST_null_message_500_witness :
  POST (mkWorld (Ok (JObj [("messages", JArr [JObj [("role", JStr "user")]; JNull])])) None
                (fun _ => Ok (mkSwarmResponse [JObj [("content", JStr "ok")]] JNull)))
  = error_response.
Proof.
  apply (POST_null_message_500 _ (JObj [("messages", JArr [JObj [("role", JStr "user")]; JNull])])
           [JObj [("role", JStr "user")]; JNull]).
  - reflexivity.
  - vm_compute. reflexivity.
  - right. left. reflexivity.
Defined.

(** route.ts and src/unnamed/part_003, POST: a JSON body other than [null]
    whose [messages] is missing or not an array is answered with 400
    'Messages array is required', and the agent is not run. *)
Theorem POST_requires_messages_array :
  forall (w : RouteWorld) (b : json),
  w_req_json w = Ok b -> b <> JNull -> (forall msgs, json_get b "messages" <> Some (JArr msgs)) ->
  POST w = missing_messages_response /\ POST_old w = missing_messages_response.
Proof.
  intros w b Hb Hnn Hm. unfold POST, POST_old. rewrite Hb. cbn [rbind].
  destruct b; try congruence; cbn [destructure_messages prop rbind]; try (split; reflexivity).
  cbn [json_get] in Hm.
  destruct (assoc_last "messages" fields) as [[] |]; try (split; reflexivity).
  exfalso. eapply Hm. reflexivity.
Qed.

Lemma POST_requires_messages_array_witness :
  POST (mkWorld (Ok (JObj [("messages", JStr "hello")])) None
                (fun _ => Ok (mkSwarmResponse [] JNull))) = missing_messages_response.
Proof.
  apply (POST_requires_messages_array _ (JObj [("messages", JStr "hello")])).
  - reflexivity.
  - discriminate.
  - intros msgs. vm_compute. discriminate.
Defined.

(** route.ts and src/unnamed/part_003, POST: a body that is not JSON, or is
    JSON [null], is answered with the generic 500 error, not with 400. *)
Theorem POST_bad_body_500 :
  forall (w : RouteWorld),
  (exists e, w_req_json w = Exn e) \/ w_req_json w = Ok JNull ->
  POST w = error_response /\ POST_old w = error_response.
Proof.
  intros w [[e He] | He]; unfold POST, POST_old; rewrite He; split; reflexivity.
Qed.

Lemma POST_bad_body_500_witness :
  POST (mkWorld (Exn "Unexpected token h in JSON at position 0") None
                (fun _ => Ok (mkSwarmResponse [] JNull))) = error_response.
Proof.
  apply POST_bad_body_500. left. eexists. reflexivity.
Defined.

(** route.ts, POST: every 200 answer comes from a request whose messages are
    an array, formatted without error and run by the agent, whose last
    message has a string content; its images are exactly the matches of
    [/\/generated-images\/[\w-]+\.png/g] in that content. *)
Theorem POST_200_images :
  forall (w : RouteWorld), res_status (POST w) = 200%Z ->
  exists b msgs fm r rest m c,
    w_req_json w = Ok b /\ json_get b "messages" = Some (JArr msgs) /\
    formatMessages msgs = Ok fm /\ w_run w fm = Ok r /\
    sw_messages r = (rest ++ [m])%list /\ json_get m "content" = Some (JStr c) /\
    res_body (POST w) = BodyResult r (str_match route_pattern c).
Proof.
  intros w H. unfold POST, catch_500 in *.
  destruct (w_req_json w) as [b | e] eqn:Eb; cbn [rbind] in *; [| discriminate H].
  destruct (destructure_messages b) as [mv | e] eqn:Ed; cbn [rbind] in *; [| discriminate H].
  assert (Hg : json_get b "messages" = mv).
  { destruct b; cbn in Ed; try discriminate Ed; injection Ed as <-; reflexivity. }
  destruct mv as [[] |]; try discriminate H.
  destruct (new_Swarm w); cbn [rbind] in *; [| discriminate H].
  destruct (formatMessages l) as [fm | e] eqn:Ef; cbn [rbind] in *; [| discriminate H].
  destruct (w_run w fm) as [r | e] eqn:Er; cbn [rbind] in *; [| discriminate H].
  destruct (extractImagePathsOfResponse r) as [images | e] eqn:Ei; cbn [rbind] in *;
    [| discriminate H].
  apply extractImagePathsOfResponse_ok in Ei as (rest & m & c & E1 & E2 & ->).
  exists b, l, fm, r, rest, m, c. repeat split; assumption.
Qed.

Lemma POST_200_images_witness :
  res_status (POST (mkWorld (Ok (JObj [("messages", JArr [JObj [("role", JStr "user")]])])) None
    (fun _ => Ok (mkSwarmResponse
       [JObj [("content", JStr "Done: /generated-images/ab-12.png")]] JNull)))) = 200%Z /\
  exists b msgs fm r rest m c,
    w_req_json (mkWorld (Ok (JObj [("messages", JArr [JObj [("role", JStr "user")]])])) None
      (fun _ => Ok (mkSwarmResponse
         [JObj [("content", JStr "Done: /generated-images/ab-12.png")]] JNull))) = Ok b /\
    json_get b "messages" = Some (JArr msgs) /\
    formatMessages msgs = Ok fm /\
    w_run (mkWorld (Ok (JObj [("messages", JArr [JObj [("role", JStr "user")]])])) None
      (fun _ => Ok (mkSwarmResponse
         [JObj [("content", JStr "Done: /generated-images/ab-12.png")]] JNull))) fm = Ok r /\
    sw_messages r = (rest ++ [m])%list /\ json_get m "content" = Some (JStr c) /\
    res_body (POST (mkWorld (Ok (JObj [("messages", JArr [JObj [("role", JStr "user")]])])) None
      (fun _ => Ok (mkSwarmResponse
         [JObj [("content", JStr "Done: /generated-images/ab-12.png")]] JNull))))
    = BodyResult r (str_match route_pattern c).
Proof.
  split; [vm_compute; reflexivity |].
  apply POST_200_images. vm_compute. reflexivity.
Defined.

(** route.ts, POST: when the agent's answer has no message, or its last
    message has no string content (a [null] content, as a message carrying
    only tool calls has), the request is answered with the generic 500 error. *)
Theorem POST_no_text_500 :
  forall (w : RouteWorld) (b : json) (msgs : list json) (fm : list FMsg) (r : SwarmResponse),
  w_req_json w = Ok b -> json_get b "messages" = Some (JArr msgs) ->
  formatMessages msgs = Ok fm -> w_run w fm = Ok r ->
  (sw_messages r = [] \/
   exists rest m, sw_messages r = (rest ++ [m])%list /\
                  forall c, json_get m "content" <> Some (JStr c)) ->
  POST w = error_response.
Proof.
  intros w b msgs fm r Hb Hm Hf Hr Hno. unfold POST. rewrite Hb. cbn [rbind].
  rewrite (json_get_destructure _ _ Hm). cbn [rbind].
  destruct (new_Swarm w); cbn [rbind]; [| reflexivity].
  rewrite Hf. cbn [rbind]. rewrite Hr. cbn [rbind].
  destruct (extractImagePathsOfResponse_no_text r Hno) as [e ->]. reflexivity.
Qed.

Lemma POST_no_text_500_witness :
  POST (mkWorld (Ok (JObj [("messages", JArr [JObj [("role", JStr "user")]])])) None
    (fun _ => Ok (mkSwarmResponse [JObj [("role", JStr "assistant"); ("content", JNull)]] JNull)))
  = error_response.
Proof.
  eapply (POST_no_text_500 _ (JObj [("messages", JArr [JObj [("role", JStr "user")]])])
            [JObj [("role", JStr "user")]]).
  - reflexivity.
  - vm_compute. reflexivity.
  - vm_compute. reflexivity.
  - reflexivity.
  - right. exists [], (JObj [("role", JStr "assistant"); ("content", JNull)]).
    split; [reflexivity | intros c; vm_compute; discriminate].
Defined.

(** src/unnamed/part_003, POST: the handler never answers 200, since
    [messages[-1]] of an array is [undefined] and reading its [content] throws. *)
Theorem POST_old_never_200 :
  forall (w : RouteWorld), res_status (POST_old w) <> 200%Z.
Proof.
  intros w. unfold POST_old, catch_500.
  destruct (w_req_json w) as [b | e]; cbn [rbind]; [| discriminate].
  destruct (destructure_messages b) as [[[] |] | e]; cbn [rbind]; try discriminate.
  destruct (new_Swarm w); cbn [rbind]; [| discriminate].
  destruct (map_res _ l) as [fm | e]; cbn [rbind]; [| discriminate].
  destruct (w_run w fm) as [r | e]; cbn [rbind]; discriminate.
Qed.

(** ** The snippet tool *)

Definition null_description : string :=
  "Cannot read properties of null (reading 'description')".


Section SnippetLoopFacts.

Variable generate : nat -> option json -> M presult.
Variable o : nat -> presult.


Lemma snippet_loop_null idx rest acc s :
  snippet_loop generate idx (JNull :: rest) acc s = (Exn null_description, s).
Proof. reflexivity. Qed.




End SnippetLoopFacts.


Lemma receive_read_error json_parse stringify envs snippetsJson e s :
  read_items json_parse snippetsJson = Exn e ->
  receiveImportantCodeSnippets json_parse stringify envs snippetsJson s
  = (Ok (PReject ("Failed to process snippets: " ++ e)), s).
Proof.
  intros Hp. unfold receiveImportantCodeSnippets, try_wrap, bind, lift. rewrite Hp. reflexivity.
Qed.



(** route.ts, receiveImportantCodeSnippets: when [snippetsJson] is not JSON,
    or its [items] is not an array, the tool rejects with 'Failed to process
    snippets: ' followed by the error, and touches nothing: no workspace is
    created and no renderer is launched. *)
Theorem receiveImportantCodeSnippets_parse_error :
  forall json_parse stringify (envs : nat -> Env) snippetsJson (s : St),
  (forall e, json_parse snippetsJson = Exn e ->
     receiveImportantCodeSnippets json_parse stringify envs snippetsJson s
     = (Ok (PReject ("Failed to process snippets: " ++ e)), s)) /\
  (forall parsed, json_parse snippetsJson = Ok parsed ->
     (forall l, prop parsed "items" <> Ok (Some (JArr l))) ->
     exists e, receiveImportantCodeSnippets json_parse stringify envs snippetsJson s
               = (Ok (PReject ("Failed to process snippets: " ++ e)), s)).
Proof.
  intros json_parse stringify envs snippetsJson s. split.
  - intros e Hp. apply receive_read_error. unfold read_items. rewrite Hp. reflexivity.
  - intros parsed Hp Hi.
    destruct (read_items json_parse snippetsJson) as [items | e] eqn:E.
    + exfalso. unfold read_items in E. rewrite Hp in E. cbn [rbind] in E.
      destruct (prop parsed "items") as [[[] |] | e]; cbn in E; try discriminate E.
      injection E as ->. exact (Hi items eq_refl).
    + exists e. apply receive_read_error. exact E.
Qed.

Lemma receiveImportantCodeSnippets_parse_error_witness :
  receiveImportantCodeSnippets (fun _ => Exn "Unexpected end of JSON input")
    (fun _ => "[]") (fun _ => env_run (Some 0%Z) ["a.png"]) "{" st0
  = (Ok (PReject "Failed to process snippets: Unexpected end of JSON input"), st0).
Proof.
  apply (proj1 (receiveImportantCodeSnippets_parse_error
                  (fun _ => Exn "Unexpected end of JSON input") (fun _ => "[]")
                  (fun _ => env_run (Some 0%Z) ["a.png"]) "{" st0)).
  reflexivity.
Defined.





(** ** Persistence and early failures of the generators *)

Ltac settle_persisted :=
  unfold_gen;
  match goal with e : Env |- _ => destruct e as [mk wr uu [err st se] rd pe cw] end;
  simpl in *; split_matches; simpl in *;
  let Hr := fresh "Hr" in
  intro Hr; try discriminate Hr; injection Hr as <- <-.

(** part_002: a resolved URL names the object the call uploaded: exactly one
    object is uploaded, under the key "generated-images/<uuid>.png", and the
    URL is that key under the CDN domain when one is configured, under the
    bucket's S3 host otherwise. *)
Theorem s3_url_names_uploaded_object :
  forall (env : Env) (self : S3Gen.ContentGenerator) (s s' : St) (v : string),
  let key := "generated-images/" ++ env_uuid env ++ ".png" in
  let url := if truthy (Some (S3Gen.cdnDomain self))
             then "https://" ++ S3Gen.cdnDomain self ++ "/" ++ key
             else "https://" ++ S3Gen.bucketName self ++ ".s3.amazonaws.com/" ++ key in
  (forall code p, S3Gen.generateCodeImage env self code p s = (Ok (PResolve v), s') ->
     v = url /\ exists src, st_persisted s' = (key, src) :: st_persisted s) /\
  (forall code, S3Gen.generateDiagramImage env self code s = (Ok (PResolve v), s') ->
     v = url /\ exists src, st_persisted s' = (key, src) :: st_persisted s).
Proof.
  intros env self s s' v key url. subst key url.
  split; intros; revert H; settle_persisted;
    (split; [reflexivity | eexists; reflexivity]).
Qed.

Lemma s3_url_names_uploaded_object_witness :
  S3Gen.generateCodeImage (env_run (Some 0%Z) ["a.png"]) s3_0 "const x = 1;" None st0
  = (Ok (PResolve "https://my-bucket.s3.amazonaws.com/generated-images/9b1deb4d-3b7d-4bad-9bdd-2b0d7b3dcb6d.png"),
     mkSt [] [("generated-images/9b1deb4d-3b7d-4bad-9bdd-2b0d7b3dcb6d.png", "/tmp/code-Ab12Cd/a.png")]
          [["carbon-now"; "/tmp/code-Ab12Cd/code_snippet.py"; "--save-to"; "/tmp/code-Ab12Cd";
            "-p"; "openai"; "--config"; "/app/src/app/api/code_snippet_generator/carbon-now.json"]]) /\
  exists src, [("generated-images/9b1deb4d-3b7d-4bad-9bdd-2b0d7b3dcb6d.png", "/tmp/code-Ab12Cd/a.png")]
              = [("generated-images/9b1deb4d-3b7d-4bad-9bdd-2b0d7b3dcb6d.png", src)].
Proof.
  split; [vm_compute; reflexivity |].
  exact (proj2 (proj1 (s3_url_names_uploaded_object (env_run (Some 0%Z) ["a.png"]) s3_0 st0
    (mkSt [] [("generated-images/9b1deb4d-3b7d-4bad-9bdd-2b0d7b3dcb6d.png", "/tmp/code-Ab12Cd/a.png")]
          [["carbon-now"; "/tmp/code-Ab12Cd/code_snippet.py"; "--save-to"; "/tmp/code-Ab12Cd";
            "-p"; "openai"; "--config"; "/app/src/app/api/code_snippet_generator/carbon-now.json"]])
    "https://my-bucket.s3.amazonaws.com/generated-images/9b1deb4d-3b7d-4bad-9bdd-2b0d7b3dcb6d.png")
    "const x = 1;" None ltac:(vm_compute; reflexivity))).
Defined.

(** part_000: a resolved reference, read under the working directory's
    "public" folder, is the file the call copied: exactly one file is copied,
    to cwd/public followed by the reference. *)
Theorem local_reference_is_public_file :
  forall (env : Env) (cwd : string) (preset : jsstr) (s s' : St) (v : string),
  (forall code p,
     LocalGen.generateCodeImage env (LocalGen.construct cwd preset) code p s
       = (Ok (PResolve v), s') ->
     exists src, st_persisted s' = (cwd ++ "/public" ++ v, src) :: st_persisted s) /\
  (forall code,
     LocalGen.generateDiagramImage env (LocalGen.construct cwd preset) code s
       = (Ok (PResolve v), s') ->
     exists src, st_persisted s' = (cwd ++ "/public" ++ v, src) :: st_persisted s).
Proof.
  intros env cwd preset s s' v.
  split; intros; revert H; unfold LocalGen.construct; settle_persisted;
    (eexists; do 2 f_equal; unfold path_join; rewrite !str_app_assoc; reflexivity).
Qed.

Lemma local_reference_is_public_file_witness :
  exists src, st_persisted (snd (LocalGen.generateCodeImage (env_run (Some 0%Z) ["a.png"])
                 (LocalGen.construct "/app" (Some "dracula")) "const x = 1;" None st0))
  = [("/app/public/generated-images/9b1deb4d-3b7d-4bad-9bdd-2b0d7b3dcb6d.png", src)].
Proof.
  destruct (proj1 (local_reference_is_public_file (env_run (Some 0%Z) ["a.png"]) "/app"
     (Some "dracula") st0
     (snd (LocalGen.generateCodeImage (env_run (Some 0%Z) ["a.png"])
             (LocalGen.construct "/app" (Some "dracula")) "const x = 1;" None st0))
     "/generated-images/9b1deb4d-3b7d-4bad-9bdd-2b0d7b3dcb6d.png")
     "const x = 1;" None ltac:(vm_compute; reflexivity)) as [src H].
  exists src. exact H.
Defined.

(** route.ts (the class after the handler): a resolved reference is the path,
    relative to the working directory, of the one file the call copied: the
    code image is copied to "<uuid>.png", and every diagram to the same
    "diagram.png", so each successful diagram replaces the previous one. *)
Theorem route_reference_is_copied_file :
  forall (env : Env) (self : RouteGen.ContentGenerator) (s s' : St) (v : string),
  (forall code p, RouteGen.generateCodeImage env self code p s = (Ok (PResolve v), s') ->
     v = env_uuid env ++ ".png" /\ exists src, st_persisted s' = (v, src) :: st_persisted s) /\
  (forall code, RouteGen.generateDiagramImage env self code s = (Ok (PResolve v), s') ->
     v = "diagram.png" /\ exists src, st_persisted s' = (v, src) :: st_persisted s).
Proof.
  intros env self s s' v.
  split; intros; revert H; settle_persisted; (split; [reflexivity | eexists; reflexivity]).
Qed.

Lemma route_reference_is_copied_file_witness :
  RouteGen.generateDiagramImage (env_run (Some 0%Z) []) route0 "graph TD; A-->B;" st0
  = (Ok (PResolve "diagram.png"),
     mkSt [] [("diagram.png", "/tmp/code-Ab12Cd/diagram.png")]
          [LocalGen.diagram_command "/tmp/code-Ab12Cd/diagram.mmd" "/tmp/code-Ab12Cd/diagram.png"
             "/tmp/code-Ab12Cd/config.json"]) /\
  "diagram.png" = "diagram.png" /\
  exists src, [("diagram.png", "/tmp/code-Ab12Cd/diagram.png")] = [("diagram.png", src)].
Proof.
  split; [vm_compute; reflexivity |].
  exact (proj2 (route_reference_is_copied_file (env_run (Some 0%Z) []) route0 st0
    (mkSt [] [("diagram.png", "/tmp/code-Ab12Cd/diagram.png")]
          [LocalGen.diagram_command "/tmp/code-Ab12Cd/diagram.mmd" "/tmp/code-Ab12Cd/diagram.png"
             "/tmp/code-Ab12Cd/config.json"]) "diagram.png")
    "graph TD; A-->B;" ltac:(vm_compute; reflexivity)).
Defined.

(** All three variants: when the workspace cannot be created, or the source
    cannot be written into it, each operation rejects with its own prefix
    followed by that error, without launching the renderer and without
    persisting anything. *)
Theorem failure_before_launch :
  forall (env : Env) (s : St) (e : string),
  env_mkdtemp env = Exn e \/ ((exists d, env_mkdtemp env = Ok d) /\ env_write env = Some e) ->
  (forall self code p, let '(r, s') := LocalGen.generateCodeImage env self code p s in
     rejected_before_launch "Failed to generate code snapshot: " e s r s') /\
  (forall self code, let '(r, s') := LocalGen.generateDiagramImage env self code s in
     rejected_before_launch "Failed to generate diagram: " e s r s') /\
  (forall self code p, let '(r, s') := S3Gen.generateCodeImage env self code p s in
     rejected_before_launch "Failed to generate code snapshot: " e s r s') /\
  (forall self code, let '(r, s') := S3Gen.generateDiagramImage env self code s in
     rejected_before_launch "Failed to generate diagram: " e s r s') /\
  (forall self code p, let '(r, s') := RouteGen.generateCodeImage env self code p s in
     rejected_before_launch "Failed to generate code snapshot: " e s r s') /\
  (forall self code, let '(r, s') := RouteGen.generateDiagramImage env self code s in
     rejected_before_launch "Failed to generate diagram: " e s r s').
Proof.
  intros env s e Hpre.
  destruct env as [mk wr uu sp rd pe cw]; cbn in Hpre.
  destruct Hpre as [-> | [[d ->] ->]];
    repeat split; intros; unfold_gen; unfold rejected_before_launch; cbn;
    repeat split; reflexivity.
Qed.

Lemma failure_before_launch_witness :
  S3Gen.generateDiagramImage
    (mkEnv (Ok dir0) (Some "ENOSPC: no space left on device") uuid0
           (mkSpawn None (Some 0%Z) "") [] None "/app") s3_0 "graph TD; A-->B;" st0
  = (Ok (PReject "Failed to generate diagram: ENOSPC: no space left on device"),
     mkSt [dir0] [] []).
Proof.
  pose proof (proj1 (proj2 (proj2 (proj2 (failure_before_launch
    (mkEnv (Ok dir0) (Some "ENOSPC: no space left on device") uuid0
           (mkSpawn None (Some 0%Z) "") [] None "/app") st0 "ENOSPC: no space left on device"
    (or_intror (conj (ex_intro _ dir0 eq_refl) eq_refl))))))) as H.
  specialize (H s3_0 "graph TD; A-->B;").
  destruct (S3Gen.generateDiagramImage _ s3_0 "graph TD; A-->B;" st0) as [r s'] eqn:E.
  vm_compute in E. rewrite <- E. reflexivity.
Defined.
